(** * Layer graphs of the StackGAN and Age-cGAN scripts

    Source files: [stack_gan/model.py] and [face_app/model.py].

    The two scripts declare Keras functional graphs.  They are embedded at
    two levels:

    - [Sym]: what the [build_*] functions do at construction time, when
      Keras layers are called on symbolic tensors.  A symbolic tensor is
      its static shape (batch dimension first, [None]), and a layer call
      either returns the inferred shape or raises ([None] of [option]).
    - value level: what a built model computes on one sample.  Real tensors
      are nested lists of reals (H x W x C images, vectors); layer weights
      are explicit arguments; the random draw of the conditioning
      augmentation is an explicit argument; batch normalisation uses its
      per-channel statistics (inference form).

    Both scripts misspell or forget to import some layer names
    ([LeakyRelu], [Relu], [lambda(...)] for [Lambda(...)], [conact],
    [add], [concatenate], [ZeroPadding2D], [Upsampling2D], [images],
    [meta]); each name is read here as the
    Keras layer or local variable it spells out.  Everything else, and in
    particular which variable each layer is applied to, follows the
    source line by line. *)

From Stdlib Require Import Reals Lra Lia ZArith List Bool.
Import ListNotations.

Open Scope R_scope.

(** ** Value-level tensors and layers *)

Module Tensor.

Definition vec := list R.
Definition img := list (list (list R)).

(** [sum_{i < n} f i] *)
Definition sumR (n : nat) (f : nat -> R) : R :=
  fold_right Rplus 0 (map f (seq 0 n)).

(** Element-wise activations, as TensorFlow computes them. *)
Definition relu (v : R) : R := Rmax v 0.
Definition leaky_relu (alpha v : R) : R := Rmax (alpha * v) v.
Definition tanh (v : R) : R := (exp v - exp (- v)) / (exp v + exp (- v)).
Definition sigmoid (v : R) : R := / (1 + exp (- v)).

Definition map_img (f : R -> R) (x : img) : img :=
  map (map (map f)) x.

(** Channel-indexed element-wise map (batch normalisation). *)
Definition map_chan (f : nat -> R -> R) (x : img) : img :=
  map (map (fun px => map (fun c => f c (nth c px 0)) (seq 0 (length px)))) x.

(** Keras [Dense(units)]: [b o + sum_i W i o * x i]. *)
Record dense_params := {
  d_kernel : nat -> nat -> R;
  d_bias : nat -> R
}.

Definition dense (units : nat) (p : dense_params) (x : vec) : vec :=
  map (fun o => d_bias p o + sumR (length x) (fun i => d_kernel p i o * nth i x 0))
      (seq 0 units).

(** Batch normalisation with per-channel statistics. *)
Record bn_params := {
  bn_gamma : nat -> R;
  bn_beta : nat -> R;
  bn_mean : nat -> R;
  bn_var : nat -> R;
  bn_eps : R
}.

Definition bn_scalar (p : bn_params) (c : nat) (v : R) : R :=
  bn_gamma p c * (v - bn_mean p c) / sqrt (bn_var p c + bn_eps p) + bn_beta p c.

Definition batch_norm (p : bn_params) (x : img) : img := map_chan (bn_scalar p) x.

Definition batch_norm_vec (p : bn_params) (x : vec) : vec :=
  map (fun c => bn_scalar p c (nth c x 0)) (seq 0 (length x)).

(** Height, width and channel count of an image. *)
Definition height (x : img) : nat := length x.
Definition width (x : img) : nat := length (hd [] x).
Definition channels (x : img) : nat := length (hd [] (hd [] x)).

(** Value at a (possibly out-of-range) position: zero outside, which is
    the zero padding of the convolutions. *)
Definition at3 (x : img) (i j : Z) (c : nat) : R :=
  if ((0 <=? i)%Z && (0 <=? j)%Z)%bool
  then nth c (nth (Z.to_nat j) (nth (Z.to_nat i) x []) []) 0
  else 0.

Inductive padding := Same | Valid.

(** Keras [Conv2D(filters, kernel_size=(k,k), strides=s, padding=pad)].
    [c_kernel di dj ci co] is the kernel, [c_bias] the bias ([0] when
    [use_bias=False]). *)
Record conv_params := {
  c_kernel : nat -> nat -> nat -> nat -> R;
  c_bias : nat -> R
}.

Definition out_dim (pad : padding) (k s n : nat) : nat :=
  match pad with
  | Same => (n + s - 1) / s
  | Valid => (n - k) / s + 1
  end.

(** TensorFlow's leading padding: half of the total, rounded down. *)
Definition pad_before (pad : padding) (k s n : nat) : nat :=
  match pad with
  | Same => ((out_dim Same k s n - 1) * s + k - n) / 2
  | Valid => 0
  end.

Definition conv2d (filters k s : nat) (pad : padding) (p : conv_params) (x : img)
  : img :=
  let H := height x in
  let W := width x in
  let C := channels x in
  let ph := Z.of_nat (pad_before pad k s H) in
  let pw := Z.of_nat (pad_before pad k s W) in
  map (fun oi =>
    map (fun oj =>
      map (fun co =>
        c_bias p co +
        sumR k (fun di => sumR k (fun dj => sumR C (fun ci =>
          c_kernel p di dj ci co *
          at3 x (Z.of_nat (oi * s + di) - ph)%Z (Z.of_nat (oj * s + dj) - pw)%Z ci))))
        (seq 0 filters))
      (seq 0 (out_dim pad k s W)))
    (seq 0 (out_dim pad k s H)).

(** Keras [ZeroPadding2D(padding=(1,1))]. *)
Definition zero_padding1 (x : img) : img :=
  let H := height x in
  let W := width x in
  let C := channels x in
  map (fun i => map (fun j => map (fun c =>
        at3 x (Z.of_nat i - 1)%Z (Z.of_nat j - 1)%Z c)
      (seq 0 C)) (seq 0 (W + 2))) (seq 0 (H + 2)).

(** Keras [UpSampling2D(size=(2,2))] (nearest neighbour). *)
Definition upsampling2d (x : img) : img :=
  map (fun i => map (fun j => nth (j / 2) (nth (i / 2) x []) [])
                    (seq 0 (2 * width x)))
      (seq 0 (2 * height x)).

(** Keras [Reshape((h, w, c))] of a vector, row-major. *)
Definition reshape3 (h w c : nat) (v : vec) : img :=
  map (fun i => map (fun j => map (fun k => nth ((i * w + j) * c + k) v 0)
                                  (seq 0 c)) (seq 0 w)) (seq 0 h).

(** Keras [Flatten()], row-major. *)
Definition flatten (x : img) : vec := concat (concat x).

(** Channel-wise concatenation of two images of the same height and
    width. *)
Definition concat_channels (x y : img) : img :=
  map (fun '(rx, ry) => map (fun '(px, py) => px ++ py) (combine rx ry))
      (combine x y).

(** Keras [add([x, y])] on images of the same shape. *)
Definition add_img (x y : img) : img :=
  map (fun '(rx, ry) =>
         map (fun '(px, py) => map (fun '(a, b) => a + b) (combine px py))
             (combine rx ry))
      (combine x y).

(** Shape of an image. *)
Definition has_shape (h w c : nat) (x : img) : Prop :=
  length x = h /\
  Forall (fun row => length row = w /\ Forall (fun px => length px = c) row) x.

(** Every value of an image satisfies [P]. *)
Definition all_values (P : R -> Prop) (x : img) : Prop :=
  Forall (Forall (Forall P)) x.

End Tensor.

(** ** [stack_gan/model.py], value level *)

Module StackGAN.
Import Tensor.

Definition kernel4 := nat -> nat -> nat -> nat -> R.

(** A layer built with [use_bias=False]. *)
Definition no_bias_conv (k : kernel4) : conv_params :=
  {| c_kernel := k; c_bias := fun _ => 0 |}.
Definition no_bias_dense (k : nat -> nat -> R) : dense_params :=
  {| d_kernel := k; d_bias := fun _ => 0 |}.

(** Element-wise [+] and [*] of two vectors of the same shape. *)
Definition vadd (a b : vec) : vec := map (fun '(u, v) => u + v) (combine a b).
Definition vmul (a b : vec) : vec := map (fun '(u, v) => u * v) (combine a b).

(** [conditioning_augmentation(x)]; [epsilon] is the value drawn by
    [K.random_normal(shape=(mean.shape[1],))] in this evaluation. *)
Definition conditioning_augmentation (x epsilon : vec) : vec :=
  let mean := firstn 128 x in
  let log_sigma := skipn 128 x in
  let stddev := map exp log_sigma in
  let c := vadd mean (vmul stddev epsilon) in
  c.

(** [build_ca_model()] applied to [input_layer]. *)
Definition build_ca_model (dense1 : dense_params) (input_layer epsilon : vec) : vec :=
  let x := dense 256 dense1 input_layer in
  let x := map (leaky_relu 0.2) x in
  let c := conditioning_augmentation x epsilon in
  c.

Record up_params := {
  up_kernel : kernel4;
  up_bn : bn_params
}.

(** [UpSamplingBlock(x, num_kernels)] *)
Definition UpSamplingBlock (p : up_params) (x : img) (num_kernels : nat) : img :=
  let x := upsampling2d x in
  let x := conv2d num_kernels 3 1 Same (no_bias_conv (up_kernel p)) x in
  let x := batch_norm (up_bn p) x in
  let x := map_img relu x in
  x.

Record stage1_gen_params := {
  g1_ca : dense_params;
  g1_fc : nat -> nat -> R;
  g1_up1 : up_params;
  g1_up2 : up_params;
  g1_up3 : up_params;
  g1_up4 : up_params;
  g1_out : kernel4
}.

(** [build_stage1_generator()] applied to [[input_layer1, input_layer2]];
    returns the model outputs [[x, ca]]. *)
Definition build_stage1_generator (p : stage1_gen_params)
    (input_layer1 input_layer2 epsilon : vec) : img * vec :=
  let ca := dense 256 (g1_ca p) input_layer1 in
  let ca := map (leaky_relu 0.2) ca in
  let c := conditioning_augmentation ca epsilon in
  let concat := c ++ input_layer2 in
  let x := dense 16384 (no_bias_dense (g1_fc p)) concat in
  let x := map relu x in
  let x := reshape3 4 4 1024 x in
  let x := UpSamplingBlock (g1_up1 p) x 512 in
  let x := UpSamplingBlock (g1_up2 p) x 256 in
  let x := UpSamplingBlock (g1_up3 p) x 128 in
  let x := UpSamplingBlock (g1_up4 p) x 64 in
  let x := conv2d 3 3 1 Same (no_bias_conv (g1_out p)) x in
  let x := map_img tanh x in
  (x, ca).

Record conv_block_params := {
  cb_kernel : kernel4;
  cb_bn : bn_params
}.

(** [ConvBlock(x, num_kernels)] *)
Definition ConvBlock (p : conv_block_params) (x : img) (num_kernels : nat) : img :=
  let x := conv2d num_kernels 4 2 Same (no_bias_conv (cb_kernel p)) x in
  let x := batch_norm (cb_bn p) x in
  let x := map_img (leaky_relu 0.2) x in
  x.

Record stage1_dis_params := {
  d1_conv : kernel4;
  d1_block1 : conv_block_params;
  d1_block2 : conv_block_params;
  d1_block3 : conv_block_params;
  d1_fused : kernel4;
  d1_fused_bn : bn_params;
  d1_fc : dense_params
}.

(** [build_stage1_discriminator()] applied to [[input_layer1, input_layer2]].
    Lines 148-150 of the source are kept as written: the batch
    normalisation and the activation are applied to [x], not to [x1]. *)
Definition build_stage1_discriminator (p : stage1_dis_params)
    (input_layer1 input_layer2 : img) : vec :=
  let x := conv2d 64 4 2 Same (no_bias_conv (d1_conv p)) input_layer1 in
  let x := map_img (leaky_relu 0.2) x in
  let x := ConvBlock (d1_block1 p) x 128 in
  let x := ConvBlock (d1_block2 p) x 256 in
  let x := ConvBlock (d1_block3 p) x 512 in
  let concat := concat_channels x input_layer2 in
  let x1 := conv2d 512 1 1 Same (no_bias_conv (d1_fused p)) concat in
  let x1 := batch_norm (d1_fused_bn p) x in
  let x1 := map_img (leaky_relu 0.2) x in
  let x1 := flatten x1 in
  let x1 := dense 1 (d1_fc p) x1 in
  let x1 := map sigmoid x1 in
  x1.

Record residual_params := {
  r_conv1 : kernel4;
  r_bn1 : bn_params;
  r_conv2 : kernel4;
  r_bn2 : bn_params
}.

(** [residual_block(inputs)]; as in the source, the second convolution
    reads [inputs]. *)
Definition residual_block (p : residual_params) (inputs : img) : img :=
  let x := conv2d 512 3 1 Same (no_bias_conv (r_conv1 p)) inputs in
  let x := batch_norm (r_bn1 p) x in
  let x := map_img relu x in
  let x := conv2d 512 3 1 Same (no_bias_conv (r_conv2 p)) inputs in
  let x := batch_norm (r_bn2 p) x in
  let x := add_img x inputs in
  let x := map_img relu x in
  x.

End StackGAN.

(** ** [face_app/model.py] *)

Module AgeCGAN.
Import Tensor.

(** *** Dates: Python's [datetime.fromordinal] (proleptic Gregorian) *)

Local Open Scope Z_scope.

Definition DI400Y : Z := 146097.
Definition DI100Y : Z := 36524.
Definition DI4Y : Z := 1461.
Definition MAXORDINAL : Z := 3652059.

Definition DAYS_IN_MONTH : list Z := [-1; 31; 28; 31; 30; 31; 30; 31; 31; 30; 31; 30; 31].
Definition DAYS_BEFORE_MONTH : list Z :=
  [-1; 0; 31; 59; 90; 120; 151; 181; 212; 243; 273; 304; 334].

Definition zget (l : list Z) (i : Z) : Z := nth (Z.to_nat i) l 0.

(** [_ord2ymd(n)] of Python's [datetime] module. *)
Definition ord2ymd (n : Z) : Z * Z * Z :=
  let n := n - 1 in
  let n400 := n / DI400Y in
  let n := n mod DI400Y in
  let year := n400 * 400 + 1 in
  let n100 := n / DI100Y in
  let n := n mod DI100Y in
  let n4 := n / DI4Y in
  let n := n mod DI4Y in
  let n1 := n / 365 in
  let n := n mod 365 in
  let year := year + n100 * 100 + n4 * 4 + n1 in
  if (n1 =? 4) || (n100 =? 4) then (year - 1, 12, 31)
  else
    let leapyear := (n1 =? 3) && (negb (n4 =? 24) || (n100 =? 3)) in
    let month := Z.shiftr (n + 50) 5 in
    let preceding := zget DAYS_BEFORE_MONTH month
                     + (if (month >? 2) && leapyear then 1 else 0) in
    let '(month, preceding) :=
      if preceding >? n then
        let month := month - 1 in
        (month, preceding - (zget DAYS_IN_MONTH month
                             + (if (month =? 2) && leapyear then 1 else 0)))
      else (month, preceding) in
    let n := n - preceding in
    (year, month, n + 1).

(** [datetime.fromordinal(n)] for [n >= 1]: [None] is the [ValueError]
    raised when the year leaves [1..9999]. *)
Definition fromordinal (n : Z) : option (Z * Z * Z) :=
  let '(y, m, d) := ord2ymd n in
  if (1 <=? y) && (y <=? 9999) then Some (y, m, d) else None.

(** [compute_age(photo_date, dob)]; [dob] is [int(dob)]. *)
Definition compute_age (photo_date dob : Z) : option Z :=
  match fromordinal (Z.max (dob - 366) 1) with
  | None => None
  | Some (year, month, _) =>
      if month <? 7 then Some (photo_date - year)
      else Some (photo_date - year - 1)
  end.

Local Close Scope Z_scope.

(** *** The encoder *)

Record encoder_params := {
  e_conv1 : conv_params;
  e_conv2 : conv_params;
  e_bn2 : bn_params;
  e_conv3 : conv_params;
  e_bn3 : bn_params;
  e_conv4 : conv_params;
  e_bn4 : bn_params;
  e_fc1 : dense_params;
  e_bn5 : bn_params;
  e_fc2 : dense_params
}.

(** [encoder()] applied to [input_layer]. *)
Definition encoder (p : encoder_params) (input_layer : img) : vec :=
  let x := conv2d 32 5 2 Same (e_conv1 p) input_layer in
  let x := map_img (leaky_relu 0.2) x in
  let x := conv2d 64 5 2 Same (e_conv2 p) input_layer in
  let x := batch_norm (e_bn2 p) x in
  let x := map_img (leaky_relu 0.2) x in
  let x := conv2d 128 5 2 Same (e_conv3 p) input_layer in
  let x := batch_norm (e_bn3 p) x in
  let x := map_img (leaky_relu 0.2) x in
  let x := conv2d 256 5 2 Same (e_conv4 p) input_layer in
  let x := batch_norm (e_bn4 p) x in
  let x := map_img (leaky_relu 0.2) x in
  let x := flatten x in
  let x := dense 4096 (e_fc1 p) x in
  let x := batch_norm_vec (e_bn5 p) x in
  let x := map (leaky_relu 0.2) x in
  let x := dense 100 (e_fc2 p) x in
  x.

(** The smaller network of the claim: the 256-filter convolution block
    followed by the dense head, with no 32-, 64- or 128-filter block. *)
Record small_encoder_params := {
  se_conv : conv_params;
  se_bn : bn_params;
  se_fc1 : dense_params;
  se_bn5 : bn_params;
  se_fc2 : dense_params
}.

Definition small_encoder (p : small_encoder_params) (input_layer : img) : vec :=
  let x := conv2d 256 5 2 Same (se_conv p) input_layer in
  let x := batch_norm (se_bn p) x in
  let x := map_img (leaky_relu 0.2) x in
  let x := dense 4096 (se_fc1 p) (flatten x) in
  let x := map (leaky_relu 0.2) (batch_norm_vec (se_bn5 p) x) in
  dense 100 (se_fc2 p) x.

(** The weights of the encoder that the smaller network keeps. *)
Definition kept_weights (p : encoder_params) : small_encoder_params :=
  {| se_conv := e_conv4 p; se_bn := e_bn4 p; se_fc1 := e_fc1 p;
     se_bn5 := e_bn5 p; se_fc2 := e_fc2 p |}.

(** *** The generator *)

(** Keras [Dropout(rate)]: the identity when the model runs in inference
    mode ([None]); in training mode, [Some keep] keeps unit [i] when
    [keep i] holds, scaled by [1 / (1 - rate)], and zeroes the others. *)
Definition dropout (rate : R) (mode : option (nat -> bool)) (x : vec) : vec :=
  match mode with
  | None => x
  | Some keep =>
      map (fun i => if keep i then nth i x 0 / (1 - rate) else 0) (seq 0 (length x))
  end.

Record generator_params := {
  g_fc1 : dense_params;
  g_fc2 : dense_params;
  g_bn2 : bn_params;
  g_conv1 : conv_params;
  g_bn3 : bn_params;
  g_conv2 : conv_params;
  g_bn4 : bn_params;
  g_conv3 : conv_params
}.

(** [generator()] applied to [[latent_vector, conditioning_variable]];
    [mode1] and [mode2] are the modes of the two [Dropout] layers. *)
Definition generator (p : generator_params) (mode1 mode2 : option (nat -> bool))
    (latent_vector conditioning_variable : vec) : img :=
  let x := latent_vector ++ conditioning_variable in
  let x := dense 20148 (g_fc1 p) x in
  let x := map (leaky_relu 0.2) x in
  let x := dropout 0.2 mode1 x in
  let x := dense 16384 (g_fc2 p) x in
  let x := batch_norm_vec (g_bn2 p) x in
  let x := map (leaky_relu 0.2) x in
  let x := dropout 0.2 mode2 x in
  let x := reshape3 8 8 256 x in
  let x := upsampling2d x in
  let x := conv2d 128 5 1 Same (g_conv1 p) x in
  let x := batch_norm (g_bn3 p) x in
  let x := map_img (leaky_relu 0.2) x in
  let x := upsampling2d x in
  let x := conv2d 64 5 1 Same (g_conv2 p) x in
  let x := batch_norm (g_bn4 p) x in
  let x := map_img (leaky_relu 0.2) x in
  let x := upsampling2d x in
  let x := conv2d 64 5 1 Same (g_conv3 p) x in
  let x := map_img tanh x in
  x.

(** *** The face recognition network *)

(** [sum(x ** 2)] *)
Definition sum_squares (x : vec) : R := fold_right Rplus 0 (map (fun v => v * v) x).

(** [tf.keras.backend.l2_normalize(x, -1)] on a vector:
    [x * rsqrt(max(sum(x ** 2), 1e-12))]. *)
Definition l2_normalize (x : vec) : vec :=
  let square_sum := sum_squares x in
  let x_inv_norm := / sqrt (Rmax square_sum (/ 10 ^ 12)) in
  map (fun v => v * x_inv_norm) x.

(** [face_recognition(shape)] applied to [input_layer]; [embedding_model]
    is the pretrained [InceptionResNetV2] with its [Dense(128)] head, a
    library network taken as a parameter. *)
Definition face_recognition (embedding_model : img -> vec) (input_layer : img) : vec :=
  let x := embedding_model input_layer in
  let outputs := l2_normalize x in
  outputs.

(** *** [load_data] *)

Local Open Scope Z_scope.

(** [[f(a) for a in l]] where [f] may raise. *)
Fixpoint map_option {A B} (f : A -> option B) (l : list A) : option (list B) :=
  match l with
  | [] => Some []
  | a :: l' =>
      match f a with
      | Some b => option_map (cons b) (map_option f l')
      | None => None
      end
  end.

(** [load_data(path)] after reading [wiki.mat]: [paths], [dob] and
    [photo_date] are the three arrays it reads ([meta] at line 63 read as
    [metadata]); each entry of [paths] is an array whose first element is
    the file name, and the [dob] entries are taken as integers.  [None] is
    the [IndexError] or [ValueError] raised on the way. *)
Definition load_data_arrays {P : Type} (paths : list (list P)) (dob photo_date : list Z)
  : option (list P * list Z) :=
  match map_option (fun i => match nth_error photo_date i, nth_error dob i with
                             | Some pd, Some d => compute_age pd d
                             | _, _ => None
                             end)
                   (seq 0 (length dob)) with
  | None => None
  | Some calculated_age =>
      match map_option (fun '(i, image_path) =>
                          match hd_error image_path, nth_error calculated_age i with
                          | Some im, Some a => Some (im, a)
                          | _, _ => None
                          end)
                       (combine (seq 0 (length paths)) paths) with
      | None => None
      | Some pairs => Some (map fst pairs, map snd pairs)
      end
  end.

Local Close Scope Z_scope.

(** *** The training labels of [main] *)

(** [np.ones((batch_size, 1)) * 0.9] and [np.zeros((batch_size, 1)) * 0.1],
    one entry per sample. *)
Definition real (batch_size : nat) : list R := map (fun v => v * 0.9) (repeat 1 batch_size).
Definition fake (batch_size : nat) : list R := map (fun v => v * 0.1) (repeat 0 batch_size).

End AgeCGAN.

(** ** Construction time: Keras shape inference on symbolic tensors *)

Module Sym.
Local Open Scope nat_scope.

(** A dimension: [None] is the unknown batch dimension. *)
Definition dim := option nat.
Definition kshape := list dim.

Definition bind {A B} (m : option A) (f : A -> option B) : option B :=
  match m with Some a => f a | None => None end.
Local Notation "'let*' x := m 'in' f" := (bind m (fun x => f))
  (at level 200, x name, m at level 100, f at level 200).

(** [Input(shape=s)] *)
Definition Input (s : list nat) : kshape := None :: map Some s.

Definition dim_eqb (a b : dim) : bool :=
  match a, b with
  | None, None => true
  | Some m, Some n => Nat.eqb m n
  | _, _ => false
  end.

Fixpoint shape_eqb (a b : kshape) : bool :=
  match a, b with
  | [], [] => true
  | d :: a', e :: b' => dim_eqb d e && shape_eqb a' b'
  | _, _ => false
  end.

(** [Dense(units)]: acts on the last axis. *)
Definition dense_shape (units : nat) (x : kshape) : option kshape :=
  match rev x with
  | Some _ :: rest => Some (rev (Some units :: rest))
  | _ => None
  end.

(** Element-wise layers: activations, batch normalisation. *)
Definition elementwise_shape (x : kshape) : option kshape := Some x.

(** [Conv2D(filters, kernel_size=k, strides=s, padding=pad)]; a [valid]
    convolution on an input smaller than its kernel is rejected. *)
Definition conv_shape (filters k s : nat) (pad : Tensor.padding) (x : kshape)
  : option kshape :=
  match x with
  | [b; Some h; Some w; Some _] =>
      match pad with
      | Tensor.Valid => if (h <? k) || (w <? k) then None
                        else Some [b; Some (Tensor.out_dim pad k s h);
                                   Some (Tensor.out_dim pad k s w); Some filters]
      | Tensor.Same => Some [b; Some (Tensor.out_dim pad k s h);
                             Some (Tensor.out_dim pad k s w); Some filters]
      end
  | _ => None
  end.

(** [ZeroPadding2D(padding=(1,1))] *)
Definition zero_padding_shape (x : kshape) : option kshape :=
  match x with
  | [b; Some h; Some w; c] => Some [b; Some (h + 2); Some (w + 2); c]
  | _ => None
  end.

(** [UpSampling2D(size=(2,2))] *)
Definition upsampling_shape (x : kshape) : option kshape :=
  match x with
  | [b; Some h; Some w; c] => Some [b; Some (2 * h); Some (2 * w); c]
  | _ => None
  end.

(** [add([x, y])]: the shapes must agree. *)
Definition add_shape (x y : kshape) : option kshape :=
  if shape_eqb x y then Some x else None.

(** [K.expand_dims(x, axis)] *)
Definition expand_dims_shape (x : kshape) (axis : nat) : option kshape :=
  if axis <=? length x then Some (firstn axis x ++ Some 1 :: skipn axis x)
  else None.

(** [K.tile(x, n)]: [tf.tile] requires one multiple per axis. *)
Definition tile_shape (x : kshape) (n : list nat) : option kshape :=
  if Nat.eqb (length n) (length x)
  then Some (map (fun '(d, k) => option_map (Nat.mul k) d) (combine x n))
  else None.

(** [K.concatenate([x, y], axis)]: same rank, same dimensions off [axis]. *)
Definition concatenate_shape (axis : nat) (x y : kshape) : option kshape :=
  if Nat.eqb (length x) (length y) && (axis <? length x)
     && shape_eqb (firstn axis x) (firstn axis y)
     && shape_eqb (skipn (S axis) x) (skipn (S axis) y)
  then match nth axis x None, nth axis y None with
       | Some m, Some n => Some (firstn axis x ++ Some (m + n) :: skipn (S axis) x)
       | _, _ => Some (firstn axis x ++ None :: skipn (S axis) x)
       end
  else None.

(** Broadcasting of two dimensions, and of two shapes aligned on their
    last axis. *)
Definition broadcast_dim (a b : dim) : option dim :=
  match a, b with
  | Some 1, d => Some d
  | d, Some 1 => Some d
  | Some m, Some n => if Nat.eqb m n then Some (Some m) else None
  | None, d => Some d
  | d, None => Some d
  end.

Fixpoint all_some {A} (l : list (option A)) : option (list A) :=
  match l with
  | [] => Some []
  | Some a :: l' => option_map (cons a) (all_some l')
  | None :: _ => None
  end.

Definition broadcast_shape (a b : kshape) : option kshape :=
  let r := Nat.max (length a) (length b) in
  let a' := repeat (Some 1) (r - length a) ++ a in
  let b' := repeat (Some 1) (r - length b) ++ b in
  all_some (map (fun '(d, e) => broadcast_dim d e) (combine a' b')).

(** Static shape of [conditioning_augmentation] on a [(batch, n)] input:
    the slices [x[:, :128]] and [x[:, 128:]], a noise tensor of shape
    [(mean.shape[1],)] and [mean + stddev * epsilon]. *)
Definition conditioning_augmentation_shape (x : kshape) : option kshape :=
  match x with
  | [b; Some n] =>
      let mean := [b; Some (Nat.min 128 n)] in
      let log_sigma := [b; Some (n - 128)] in
      let stddev := log_sigma in
      let epsilon := [Some (Nat.min 128 n)] in
      let* t := broadcast_shape stddev epsilon in
      broadcast_shape mean t
  | _ => None
  end.

(** [UpSamplingBlock(x, num_kernels)] *)
Definition UpSamplingBlock_shape (x : kshape) (num_kernels : nat) : option kshape :=
  let* x := upsampling_shape x in
  let* x := conv_shape num_kernels 3 1 Tensor.Same x in
  let* x := elementwise_shape x in
  let* x := elementwise_shape x in
  Some x.

(** [residual_block(inputs)] *)
Definition residual_block_shape (inputs : kshape) : option kshape :=
  let* x := conv_shape 512 3 1 Tensor.Same inputs in
  let* x := elementwise_shape x in
  let* x := elementwise_shape x in
  let* x := conv_shape 512 3 1 Tensor.Same inputs in
  let* x := elementwise_shape x in
  let* x := add_shape x inputs in
  let* x := elementwise_shape x in
  Some x.

(** [concat_along_dims([c, x])] *)
Definition concat_along_dims_shape (c x : kshape) : option kshape :=
  let* c := expand_dims_shape c 1 in
  let* c := tile_shape c [1; 16; 16; 1] in
  concatenate_shape 3 c x.

(** The same join with the label broadcast of [face_app]'s [expand_dims]:
    two [expand_dims] on axis 1 before the tiling. *)
Definition concat_along_dims_expanded_twice_shape (c x : kshape) : option kshape :=
  let* c := expand_dims_shape c 1 in
  let* c := expand_dims_shape c 1 in
  let* c := tile_shape c [1; 16; 16; 1] in
  concatenate_shape 3 c x.

(** [build_stage2_generator()], parameterised by the function that joins
    the conditioning vector to the encoded image; returns the static shapes
    of the outputs [[x, ca]]. *)
Definition stage2_generator_shape_using (join : kshape -> kshape -> option kshape)
  : option (kshape * kshape) :=
  let input_layer1 := Input [1024] in
  let input_images := Input [64; 64; 3] in
  let* ca := dense_shape 256 input_layer1 in
  let* ca := elementwise_shape ca in
  let* c := conditioning_augmentation_shape ca in
  let* x := zero_padding_shape input_images in
  let* x := conv_shape 128 3 1 Tensor.Valid x in
  let* x := elementwise_shape x in
  let* x := zero_padding_shape x in
  let* x := conv_shape 256 4 2 Tensor.Valid x in
  let* x := elementwise_shape x in
  let* x := elementwise_shape x in
  let* x := zero_padding_shape x in
  let* x := conv_shape 512 4 2 Tensor.Valid x in
  let* x := elementwise_shape x in
  let* x := elementwise_shape x in
  let* concat := join c x in
  let* x := zero_padding_shape concat in
  let* x := conv_shape 512 3 1 Tensor.Same x in
  let* x := elementwise_shape x in
  let* x := elementwise_shape x in
  let* x := residual_block_shape x in
  let* x := residual_block_shape x in
  let* x := residual_block_shape x in
  let* x := residual_block_shape x in
  let* x := UpSamplingBlock_shape x 512 in
  let* x := UpSamplingBlock_shape x 256 in
  let* x := UpSamplingBlock_shape x 128 in
  let* x := UpSamplingBlock_shape x 64 in
  let* x := conv_shape 3 3 1 Tensor.Same x in
  let* x := elementwise_shape x in
  Some (x, ca).

Definition build_stage2_generator_shape : option (kshape * kshape) :=
  stage2_generator_shape_using concat_along_dims_shape.

Definition prod_nat (l : list nat) : nat := fold_right Nat.mul 1 l.

(** [Reshape(target)]: the number of values per sample must not change. *)
Definition reshape_shape (target : list nat) (x : kshape) : option kshape :=
  match x with
  | b :: rest =>
      match all_some rest with
      | Some ds => if Nat.eqb (prod_nat ds) (prod_nat target)
                   then Some (b :: map Some target) else None
      | None => None
      end
  | [] => None
  end.

(** [Flatten()] *)
Definition flatten_shape (x : kshape) : option kshape :=
  match x with
  | b :: rest => option_map (fun ds => [b; Some (prod_nat ds)]) (all_some rest)
  | [] => None
  end.

(** Calling a built model: one tensor per model input, of that input's
    shape. *)
Definition inputs_compatible (inputs args : list kshape) : bool :=
  Nat.eqb (length inputs) (length args)
  && forallb (fun '(a, b) => shape_eqb a b) (combine inputs args).

End Sym.

(** A built model at construction time: its input and output shapes. *)
Module StackGANSym.
Import Sym.
Local Open Scope nat_scope.
Local Notation "'let*' x := m 'in' f" := (bind m (fun x => f))
  (at level 200, x name, m at level 100, f at level 200).

(** [ConvBlock(x, num_kernels)] *)
Definition ConvBlock_shape (x : kshape) (num_kernels : nat) : option kshape :=
  let* x := conv_shape num_kernels 4 2 Tensor.Same x in
  let* x := elementwise_shape x in
  let* x := elementwise_shape x in
  Some x.

(** [build_stage1_generator()]: inputs and outputs [[x, ca]]. *)
Definition build_stage1_generator_shape : option (list kshape * list kshape) :=
  let input_layer1 := Input [1024] in
  let* ca := dense_shape 256 input_layer1 in
  let* ca := elementwise_shape ca in
  let* c := conditioning_augmentation_shape ca in
  let input_layer2 := Input [100] in
  let* concat := concatenate_shape 1 c input_layer2 in
  let* x := dense_shape 16384 concat in
  let* x := elementwise_shape x in
  let* x := reshape_shape [4; 4; 1024] x in
  let* x := UpSamplingBlock_shape x 512 in
  let* x := UpSamplingBlock_shape x 256 in
  let* x := UpSamplingBlock_shape x 128 in
  let* x := UpSamplingBlock_shape x 64 in
  let* x := conv_shape 3 3 1 Tensor.Same x in
  let* x := elementwise_shape x in
  Some ([input_layer1; input_layer2], [x; ca]).

(** [build_stage1_discriminator()]; lines 149-150 read [x]. *)
Definition build_stage1_discriminator_shape : option (list kshape * list kshape) :=
  let input_layer1 := Input [64; 64; 3] in
  let* x := conv_shape 64 4 2 Tensor.Same input_layer1 in
  let* x := elementwise_shape x in
  let* x := ConvBlock_shape x 128 in
  let* x := ConvBlock_shape x 256 in
  let* x := ConvBlock_shape x 512 in
  let input_layer2 := Input [4; 4; 128] in
  let* concat := concatenate_shape 3 x input_layer2 in
  let* x1 := conv_shape 512 1 1 Tensor.Same concat in
  let* x1 := elementwise_shape x in
  let* x1 := elementwise_shape x in
  let* x1 := flatten_shape x1 in
  let* x1 := dense_shape 1 x1 in
  let* x1 := elementwise_shape x1 in
  Some ([input_layer1; input_layer2], [x1]).

(** [build_adversarial(generator_model, discriminator_model)]: the
    outputs [[probabilities, ca]]. *)
Definition build_adversarial_shape (generator_model discriminator_model : list kshape * list kshape)
  : option (list kshape) :=
  let input_layer1 := Input [1024] in
  let input_layer2 := Input [100] in
  let input_layer3 := Input [4; 4; 128] in
  let '(gen_inputs, gen_outputs) := generator_model in
  let '(dis_inputs, dis_outputs) := discriminator_model in
  if inputs_compatible gen_inputs [input_layer1; input_layer2] then
    match gen_outputs with
    | [x; ca] =>
        if inputs_compatible dis_inputs [x; input_layer3] then
          match dis_outputs with
          | [probabilities] => Some [probabilities; ca]
          | _ => None
          end
        else None
    | _ => None
    end
  else None.

End StackGANSym.

Module AgeCGANSym.
Import Sym.
Local Open Scope nat_scope.
Local Notation "'let*' x := m 'in' f" := (bind m (fun x => f))
  (at level 200, x name, m at level 100, f at level 200).

(** [generator()] ([Upsampling2D] read as [UpSampling2D]). *)
Definition generator_shape : option (list kshape * list kshape) :=
  let latent_vector := Input [100] in
  let conditioning_variable := Input [6] in
  let* x := concatenate_shape 1 latent_vector conditioning_variable in
  let* x := dense_shape 20148 x in
  let* x := elementwise_shape x in
  let* x := elementwise_shape x in
  let* x := dense_shape 16384 x in
  let* x := elementwise_shape x in
  let* x := elementwise_shape x in
  let* x := elementwise_shape x in
  let* x := reshape_shape [8; 8; 256] x in
  let* x := upsampling_shape x in
  let* x := conv_shape 128 5 1 Tensor.Same x in
  let* x := elementwise_shape x in
  let* x := elementwise_shape x in
  let* x := upsampling_shape x in
  let* x := conv_shape 64 5 1 Tensor.Same x in
  let* x := elementwise_shape x in
  let* x := elementwise_shape x in
  let* x := upsampling_shape x in
  let* x := conv_shape 64 5 1 Tensor.Same x in
  let* x := elementwise_shape x in
  Some ([latent_vector; conditioning_variable], [x]).

(** [expand_dims(label)] *)
Definition expand_dims (label : kshape) : option kshape :=
  let* label := expand_dims_shape label 1 in
  let* label := expand_dims_shape label 1 in
  tile_shape label [1; 32; 32; 1].

(** [discriminator()]; as in the source, the model's second input is the
    variable [label] after line 169 rebinds it ([images] read as
    [image]). *)
Definition discriminator_shape : option (list kshape * list kshape) :=
  let image := Input [64; 64; 3] in
  let label := Input [6] in
  let* x := conv_shape 64 3 2 Tensor.Same image in
  let* x := elementwise_shape x in
  let* label := expand_dims label in
  let* x := concatenate_shape 3 x label in
  let* x := conv_shape 128 3 2 Tensor.Same x in
  let* x := elementwise_shape x in
  let* x := elementwise_shape x in
  let* x := conv_shape 256 3 2 Tensor.Same x in
  let* x := elementwise_shape x in
  let* x := elementwise_shape x in
  let* x := conv_shape 512 3 2 Tensor.Same x in
  let* x := elementwise_shape x in
  let* x := elementwise_shape x in
  let* x := flatten_shape x in
  let* x := dense_shape 1 x in
  Some ([image; label], [x]).

(** [adversarial(generator, discriminator)]: the outputs [[valid]]. *)
Definition adversarial_shape (generator discriminator : list kshape * list kshape)
  : option (list kshape) :=
  let latent_space := Input [100] in
  let conditioning_variable := Input [6] in
  let '(gen_inputs, gen_outputs) := generator in
  let '(dis_inputs, dis_outputs) := discriminator in
  if inputs_compatible gen_inputs [latent_space; conditioning_variable] then
    match gen_outputs with
    | [reconstructed] =>
        if inputs_compatible dis_inputs [reconstructed; conditioning_variable] then
          match dis_outputs with
          | [valid] => Some [valid]
          | _ => None
          end
        else None
    | _ => None
    end
  else None.

End AgeCGANSym.

(** ** The [trainable] flag and the adversarial composites *)

(** Keras models are shared objects: the composite calls the same
    generator and discriminator objects, so their weights and their
    [trainable] flags live in one store.  [compile] fixes which sub-models
    the composite's optimiser updates: those whose flag is set when it is
    compiled (later flag changes need a new [compile]). *)
Module Trainable.

Inductive model_id := Generator | Discriminator.

Definition model_id_eqb (a b : model_id) : bool :=
  match a, b with
  | Generator, Generator | Discriminator, Discriminator => true
  | _, _ => false
  end.

Record store := {
  gen_weights : list R;
  dis_weights : list R;
  gen_trainable : bool;
  dis_trainable : bool
}.

Definition weights (s : store) (m : model_id) : list R :=
  match m with Generator => gen_weights s | Discriminator => dis_weights s end.

Definition is_trainable (s : store) (m : model_id) : bool :=
  match m with Generator => gen_trainable s | Discriminator => dis_trainable s end.

(** [model.trainable = b] *)
Definition set_trainable (m : model_id) (b : bool) (s : store) : store :=
  match m with
  | Generator => {| gen_weights := gen_weights s; dis_weights := dis_weights s;
                    gen_trainable := b; dis_trainable := dis_trainable s |}
  | Discriminator => {| gen_weights := gen_weights s; dis_weights := dis_weights s;
                        gen_trainable := gen_trainable s; dis_trainable := b |}
  end.

Definition set_weights (m : model_id) (w : list R) (s : store) : store :=
  match m with
  | Generator => {| gen_weights := w; dis_weights := dis_weights s;
                    gen_trainable := gen_trainable s; dis_trainable := dis_trainable s |}
  | Discriminator => {| gen_weights := gen_weights s; dis_weights := w;
                        gen_trainable := gen_trainable s; dis_trainable := dis_trainable s |}
  end.

(** A functional model over shared sub-models: the sub-models it calls. *)
Record composite := { members : list model_id }.

(** [composite.compile(...)]: the sub-models its optimiser will update. *)
Definition compile (s : store) (c : composite) : list model_id :=
  filter (is_trainable s) (members c).

(** One optimisation step of a compiled model (gradient descent with rate
    [lr]): every sub-model it trains moves along its gradient. *)
Definition train_step (trained : list model_id) (lr : R) (grad : model_id -> list R)
    (s : store) : store :=
  fold_left (fun s m =>
      set_weights m (map (fun '(w, g) => w - lr * g) (combine (weights s m) (grad m))) s)
    trained s.

(** [stack_gan]'s [build_adversarial(generator_model, discriminator_model)] *)
Definition build_adversarial (s : store) : store * composite :=
  let s := set_trainable Discriminator false s in
  (s, {| members := [Generator; Discriminator] |}).

(** [face_app]'s [adversarial(generator, discriminator)] *)
Definition adversarial (s : store) : store * composite :=
  let s := set_trainable Discriminator false s in
  let s := set_trainable Discriminator true s in
  (s, {| members := [Generator; Discriminator] |}).

(** Freshly built models ([generator()], [discriminator()]) are trainable. *)
Definition fresh (wg wd : list R) : store :=
  {| gen_weights := wg; dis_weights := wd; gen_trainable := true; dis_trainable := true |}.

(** The model set-up of [face_app]'s [main]: the compiled generator,
    discriminator and adversarial models, and the store afterwards. *)
Definition main_setup (wg wd : list R)
  : store * list model_id * list model_id * list model_id :=
  let s := fresh wg wd in
  let gen_c := compile s {| members := [Generator] |} in
  let dis_c := compile s {| members := [Discriminator] |} in
  let '(s, adv) := adversarial s in
  let adv_c := compile s adv in
  (s, gen_c, dis_c, adv_c).

End Trainable.

(** ** Sample weights and inputs *)

Module Samples.
Import Tensor StackGAN.

Definition zero_kernel : kernel4 := fun _ _ _ _ => 0.
Definition zero_dense : dense_params := {| d_kernel := fun _ _ => 0; d_bias := fun _ => 0 |}.

(** Batch normalisation with Keras' initial values. *)
Definition initial_bn : bn_params :=
  {| bn_gamma := fun _ => 1; bn_beta := fun _ => 0; bn_mean := fun _ => 0;
     bn_var := fun _ => 1; bn_eps := / 1000 |}.

Definition zero_up : up_params := {| up_kernel := zero_kernel; up_bn := initial_bn |}.

Definition zero_stage1_gen : stage1_gen_params :=
  {| g1_ca := zero_dense; g1_fc := fun _ _ => 0; g1_up1 := zero_up; g1_up2 := zero_up;
     g1_up3 := zero_up; g1_up4 := zero_up; g1_out := zero_kernel |}.

Definition zero_residual : residual_params :=
  {| r_conv1 := zero_kernel; r_bn1 := initial_bn; r_conv2 := zero_kernel;
     r_bn2 := initial_bn |}.

Definition zero_image (h w c : nat) : img := repeat (repeat (repeat 0 c) w) h.

End Samples.

(** * Proofs *)

(** ** Shapes and value ranges of the layers *)

Module TensorFacts.
Import Tensor.

Lemma Forall_map_seq {A} (P : A -> Prop) (f : nat -> A) (a n : nat) :
  (forall i, (a <= i < a + n)%nat -> P (f i)) -> Forall P (map f (seq a n)).
Proof.
  intros H. apply Forall_forall. intros y Hy.
  apply in_map_iff in Hy as [i [<- Hi]]. apply in_seq in Hi. apply H; lia.
Qed.

Lemma Forall_nth' {A} (P : A -> Prop) (l : list A) (i : nat) (d : A) :
  Forall P l -> (i < length l)%nat -> P (nth i l d).
Proof.
  intros H Hi. rewrite Forall_forall in H. apply H, nth_In; exact Hi.
Qed.

Lemma has_shape_width h w c x : has_shape h w c x -> (0 < h)%nat -> width x = w.
Proof.
  intros [Hl Hf] Hh. destruct x as [|row x']; simpl in Hl; [lia|].
  inversion Hf as [|? ? Hrow]; subst. simpl. apply Hrow.
Qed.

Lemma has_shape_row h w c x i :
  has_shape h w c x -> (i < h)%nat ->
  length (nth i x []) = w /\ Forall (fun px => length px = c) (nth i x []).
Proof.
  intros [Hl Hf] Hi. apply (Forall_nth' _ _ _ _ Hf). lia.
Qed.

Lemma has_shape_px h w c x i j :
  has_shape h w c x -> (i < h)%nat -> (j < w)%nat ->
  length (nth j (nth i x []) []) = c.
Proof.
  intros Hs Hi Hj. destruct (has_shape_row _ _ _ _ _ Hs Hi) as [Hw Hp].
  apply (Forall_nth' _ _ _ _ Hp). lia.
Qed.

Lemma reshape3_shape h w c v : has_shape h w c (reshape3 h w c v).
Proof.
  unfold reshape3, has_shape. rewrite length_map, length_seq. split; [reflexivity|].
  apply Forall_map_seq. intros i _. rewrite length_map, length_seq. split; [reflexivity|].
  apply Forall_map_seq. intros j _. rewrite length_map, length_seq. reflexivity.
Qed.

Lemma upsampling2d_shape h w c x :
  has_shape h w c x -> (0 < h)%nat -> has_shape (2 * h) (2 * w) c (upsampling2d x).
Proof.
  intros Hs Hh. pose proof (has_shape_width _ _ _ _ Hs Hh) as Hw.
  destruct Hs as [Hl Hf].
  unfold upsampling2d, height, has_shape. rewrite length_map, length_seq, Hl.
  split; [reflexivity|].
  apply Forall_map_seq. intros i Hi. rewrite length_map, length_seq, Hw.
  split; [reflexivity|].
  apply Forall_map_seq. intros j Hj.
  apply (has_shape_px h w c); [split; assumption | |];
    apply Nat.Div0.div_lt_upper_bound; lia.
Qed.

Lemma conv2d_shape filters k s pad p h w c x :
  has_shape h w c x -> (0 < h)%nat ->
  has_shape (out_dim pad k s h) (out_dim pad k s w) filters (conv2d filters k s pad p x).
Proof.
  intros Hs Hh. pose proof (has_shape_width _ _ _ _ Hs Hh) as Hw.
  destruct Hs as [Hl Hf].
  unfold conv2d, height, has_shape. rewrite length_map, length_seq, Hl.
  split; [reflexivity|].
  apply Forall_map_seq. intros i _. rewrite length_map, length_seq, Hw.
  split; [reflexivity|].
  apply Forall_map_seq. intros j _. rewrite length_map, length_seq. reflexivity.
Qed.

Lemma map_img_shape f h w c x : has_shape h w c x -> has_shape h w c (map_img f x).
Proof.
  intros [Hl Hf]. unfold map_img, has_shape. rewrite length_map. split; [exact Hl|].
  apply Forall_map. eapply Forall_impl; [|exact Hf]. intros row [Hr Hp].
  rewrite length_map. split; [exact Hr|].
  apply Forall_map. eapply Forall_impl; [|exact Hp]. intros px Hpx.
  rewrite length_map. exact Hpx.
Qed.

Lemma batch_norm_shape p h w c x : has_shape h w c x -> has_shape h w c (batch_norm p x).
Proof.
  intros [Hl Hf]. unfold batch_norm, map_chan, has_shape. rewrite length_map.
  split; [exact Hl|].
  apply Forall_map. eapply Forall_impl; [|exact Hf]. intros row [Hr Hp].
  rewrite length_map. split; [exact Hr|].
  apply Forall_map. eapply Forall_impl; [|exact Hp]. intros px Hpx.
  rewrite length_map, length_seq. exact Hpx.
Qed.

Lemma add_img_shape h w c x y :
  has_shape h w c x -> has_shape h w c y -> has_shape h w c (add_img x y).
Proof.
  intros [Hlx Hfx] [Hly Hfy]. unfold add_img, has_shape.
  rewrite length_map, length_combine, Hlx, Hly, Nat.min_id. split; [reflexivity|].
  rewrite Forall_forall in Hfx, Hfy.
  apply Forall_forall. intros r Hr. apply in_map_iff in Hr as [[rx ry] [<- Hin]].
  destruct (Hfx rx (in_combine_l _ _ _ _ Hin)) as [Hrx Hpx].
  destruct (Hfy ry (in_combine_r _ _ _ _ Hin)) as [Hry Hpy].
  rewrite length_map, length_combine, Hrx, Hry, Nat.min_id. split; [reflexivity|].
  rewrite Forall_forall in Hpx, Hpy.
  apply Forall_forall. intros q Hq. apply in_map_iff in Hq as [[px py] [<- Hin']].
  rewrite length_map, length_combine,
    (Hpx px (in_combine_l _ _ _ _ Hin')), (Hpy py (in_combine_r _ _ _ _ Hin')).
  apply Nat.min_id.
Qed.

Lemma all_values_map_img (P : R -> Prop) f x :
  (forall v, P (f v)) -> all_values P (map_img f x).
Proof.
  intros H. unfold all_values, map_img.
  apply Forall_forall. intros r Hr. apply in_map_iff in Hr as [r0 [<- _]].
  apply Forall_forall. intros q Hq. apply in_map_iff in Hq as [q0 [<- _]].
  apply Forall_forall. intros v Hv. apply in_map_iff in Hv as [v0 [<- _]].
  apply H.
Qed.

Lemma tanh_bounds v : -1 <= tanh v <= 1.
Proof.
  unfold tanh. pose proof (exp_pos v) as Ha. pose proof (exp_pos (- v)) as Hb.
  set (a := exp v) in *. set (b := exp (- v)) in *.
  split; apply (Rmult_le_reg_r (a + b)); try lra;
    unfold Rdiv; rewrite Rmult_assoc, Rinv_l by lra; lra.
Qed.

Lemma sigmoid_bounds v : 0 <= sigmoid v <= 1.
Proof.
  unfold sigmoid. pose proof (exp_pos (- v)) as He. split.
  - left. apply Rinv_0_lt_compat. lra.
  - rewrite <- Rinv_1. apply Rinv_le_contravar; lra.
Qed.

End TensorFacts.

(** ** Facts on the StackGAN networks *)

Module StackGANFacts.
Import Tensor TensorFacts StackGAN.

Ltac len_simpl :=
  repeat (rewrite length_map || rewrite length_combine || rewrite length_firstn
          || rewrite length_skipn || rewrite length_seq).

Lemma out_dim_same1 k n : out_dim Same k 1 n = n.
Proof. unfold out_dim. rewrite Nat.add_sub. apply Nat.div_1_r. Qed.

Lemma conv2d_same1_shape filters k p h w c x :
  has_shape h w c x -> (0 < h)%nat -> has_shape h w filters (conv2d filters k 1 Same p x).
Proof.
  intros Hs Hh. rewrite <- (out_dim_same1 k h), <- (out_dim_same1 k w) at 1.
  eapply conv2d_shape; eassumption.
Qed.

Lemma UpSamplingBlock_has_shape p h w c x k :
  has_shape h w c x -> (0 < h)%nat ->
  has_shape (2 * h) (2 * w) k (UpSamplingBlock p x k).
Proof.
  intros Hs Hh. unfold UpSamplingBlock.
  apply map_img_shape, batch_norm_shape.
  eapply conv2d_same1_shape; [apply upsampling2d_shape; eassumption | lia].
Qed.

Lemma nth_map_combine {A B C} (g : A * B -> C) (a : list A) (b : list B) k da db dc :
  (k < length a)%nat -> length a = length b ->
  nth k (map g (combine a b)) dc = g (nth k a da, nth k b db).
Proof.
  intros Hk Hab.
  rewrite (nth_indep _ dc (g (da, db))) by (rewrite length_map, length_combine; lia).
  rewrite map_nth, combine_nth by exact Hab. reflexivity.
Qed.

Lemma nth_map_pair (f : R -> R -> R) (a b : list R) (k : nat) :
  (k < length a)%nat -> length a = length b ->
  nth k (map (fun '(u, v) => f u v) (combine a b)) 0 = f (nth k a 0) (nth k b 0).
Proof.
  intros Hk Hab. rewrite (nth_map_combine _ _ _ _ 0 0 0 Hk Hab). reflexivity.
Qed.

Lemma conditioning_augmentation_spec (x epsilon : vec) :
  length x = 256%nat -> length epsilon = 128%nat ->
  length (conditioning_augmentation x epsilon) = 128%nat /\
  forall k, (k < 128)%nat ->
    nth k (conditioning_augmentation x epsilon) 0 =
    nth k x 0 + exp (nth (128 + k) x 0) * nth k epsilon 0.
Proof.
  intros Hx He. unfold conditioning_augmentation, vadd, vmul. split.
  - len_simpl. lia.
  - intros k Hk.
    rewrite (nth_map_pair Rplus) by (len_simpl; lia).
    rewrite (nth_map_pair Rmult) by (len_simpl; lia).
    rewrite nth_firstn. replace (k <? 128)%nat with true by (symmetry; apply Nat.ltb_lt; lia).
    rewrite (nth_indep (map exp (skipn 128 x)) 0 (exp 0)) by (len_simpl; lia).
    rewrite map_nth, nth_skipn. reflexivity.
Qed.

Lemma dense_length units p x : length (dense units p x) = units.
Proof. unfold dense. rewrite length_map. apply length_seq. Qed.

(** C3, as the code does it: [build_stage1_discriminator] applies a
    stride-2 convolution with a leaky rectifier (no normalisation) and
    three [ConvBlock]s to the image, and for every image and conditioning
    map returns one sigmoid value, in [0, 1]. *)
Theorem stage1_discriminator_single_probability (p : stage1_dis_params) (image cond : img) :
  length (build_stage1_discriminator p image cond) = 1%nat /\
  Forall (fun v => 0 <= v <= 1) (build_stage1_discriminator p image cond).
Proof.
  unfold build_stage1_discriminator. split.
  - rewrite length_map. apply dense_length.
  - apply Forall_forall. intros v Hv. apply in_map_iff in Hv as [u [<- _]].
    apply sigmoid_bounds.
Qed.

(** C1: for every embedding of width 1024 and latent vector of width 100,
    the image output of [build_stage1_generator] has shape 64x64x3 and all
    its values in [-1, 1]. *)
Theorem stage1_generator_image_shape_and_range (p : stage1_gen_params)
    (input_layer1 input_layer2 epsilon : vec) :
  length input_layer1 = 1024%nat -> length input_layer2 = 100%nat ->
  has_shape 64 64 3 (fst (build_stage1_generator p input_layer1 input_layer2 epsilon)) /\
  all_values (fun v => -1 <= v <= 1)
    (fst (build_stage1_generator p input_layer1 input_layer2 epsilon)).
Proof.
  intros _ _. cbv beta zeta delta [build_stage1_generator]. cbn [fst]. split.
  - apply map_img_shape. eapply conv2d_same1_shape; [|lia].
    eapply (UpSamplingBlock_has_shape _ 32 32); [|lia].
    eapply (UpSamplingBlock_has_shape _ 16 16); [|lia].
    eapply (UpSamplingBlock_has_shape _ 8 8); [|lia].
    eapply (UpSamplingBlock_has_shape _ 4 4); [|lia].
    apply reshape3_shape.
  - apply all_values_map_img. exact tanh_bounds.
Qed.

Lemma stage1_generator_image_shape_and_range_witness :
  length (repeat 0 1024) = 1024%nat /\ length (repeat 0 100) = 100%nat /\
  has_shape 64 64 3 (fst (build_stage1_generator Samples.zero_stage1_gen
                            (repeat 0 1024) (repeat 0 100) (repeat 0 128))) /\
  all_values (fun v => -1 <= v <= 1)
    (fst (build_stage1_generator Samples.zero_stage1_gen
            (repeat 0 1024) (repeat 0 100) (repeat 0 128))).
Proof.
  split; [reflexivity|]. split; [reflexivity|].
  apply stage1_generator_image_shape_and_range; reflexivity.
Defined.

(** C2: conditioning augmentation projects the 1024-wide embedding through
    [Dense(256)] and [LeakyReLU(0.2)], and returns the 128-wide vector
    [mean + exp(log_sigma) * epsilon], [mean] and [log_sigma] being the
    two halves of the projection: half its width. *)
Theorem ca_model_halves_projection (dense1 : dense_params) (input_layer epsilon : vec) :
  length input_layer = 1024%nat -> length epsilon = 128%nat ->
  let x := map (leaky_relu 0.2) (dense 256 dense1 input_layer) in
  length x = 256%nat /\
  length (build_ca_model dense1 input_layer epsilon) = 128%nat /\
  (2 * length (build_ca_model dense1 input_layer epsilon))%nat = length x /\
  forall k, (k < 128)%nat ->
    nth k (build_ca_model dense1 input_layer epsilon) 0 =
    nth k x 0 + exp (nth (128 + k) x 0) * nth k epsilon 0.
Proof.
  intros _ He x.
  assert (Hx : length x = 256%nat) by (unfold x; rewrite length_map; apply dense_length).
  destruct (conditioning_augmentation_spec x epsilon Hx He) as [Hl Hn].
  unfold build_ca_model. fold x. rewrite Hl, Hx. auto.
Qed.

Lemma ca_model_halves_projection_witness :
  length (repeat 0 1024) = 1024%nat /\ length (repeat 0 128) = 128%nat /\
  (let x := map (leaky_relu 0.2) (dense 256 Samples.zero_dense (repeat 0 1024)) in
   length x = 256%nat /\
   length (build_ca_model Samples.zero_dense (repeat 0 1024) (repeat 0 128)) = 128%nat /\
   Nat.mul 2 (length (build_ca_model Samples.zero_dense (repeat 0 1024) (repeat 0 128)))
     = length x /\
   forall k, (k < 128)%nat ->
     nth k (build_ca_model Samples.zero_dense (repeat 0 1024) (repeat 0 128)) 0 =
     nth k x 0 + exp (nth (128 + k) x 0) * nth k (repeat 0 128) 0).
Proof.
  split; [reflexivity|]. split; [reflexivity|].
  apply ca_model_halves_projection; reflexivity.
Defined.

(** C3 fails: an output computed from the fused convolution over the
    image features concatenated with the conditioning map would change with
    the conditioning map for some weights and inputs; the output of
    [build_stage1_discriminator] never does, because lines 149-150 apply
    the normalisation and the activation to [x], discarding the fused
    convolution. *)
Lemma stage1_discriminator_ignores_conditioning_map :
  ~ exists (p : stage1_dis_params) (image cond1 cond2 : img),
      build_stage1_discriminator p image cond1 <> build_stage1_discriminator p image cond2.
Proof.
  intros [p [image [cond1 [cond2 Hne]]]]. apply Hne. reflexivity.
Qed.

(** C7: for every feature map of shape h x w x 512, [residual_block]
    returns a feature map of the same shape. *)
Theorem residual_block_preserves_shape (p : residual_params) (h w : nat) (inputs : img) :
  has_shape h w 512 inputs -> has_shape h w 512 (residual_block p inputs).
Proof.
  intros Hs. unfold residual_block. apply map_img_shape.
  apply add_img_shape; [|exact Hs]. apply batch_norm_shape.
  destruct (Nat.eq_dec h 0) as [->|Hh].
  - destruct Hs as [Hl _]. destruct inputs; [|discriminate].
    split; [reflexivity|cbn; constructor].
  - apply conv2d_same1_shape with (c := 512%nat); [exact Hs|lia].
Qed.

Lemma residual_block_preserves_shape_witness :
  has_shape 2 3 512 (Samples.zero_image 2 3 512) /\
  has_shape 2 3 512 (residual_block Samples.zero_residual (Samples.zero_image 2 3 512)).
Proof.
  assert (H : has_shape 2 3 512 (Samples.zero_image 2 3 512))
    by (split; [reflexivity|]; repeat constructor).
  split; [exact H|]. apply residual_block_preserves_shape. exact H.
Defined.

(** C8: the output of conditioning augmentation is a function of the
    embedding and of the noise drawn: equal draws give equal outputs, and
    distinct draws give distinct outputs. *)
Theorem ca_output_determined_by_noise (dense1 : dense_params) (input_layer eps1 eps2 : vec) :
  length eps1 = 128%nat -> length eps2 = 128%nat ->
  build_ca_model dense1 input_layer eps1 = build_ca_model dense1 input_layer eps2
  <-> eps1 = eps2.
Proof.
  intros H1 H2. split; [|intros ->; reflexivity].
  intros Heq. unfold build_ca_model in Heq.
  set (x := map (leaky_relu 0.2) (dense 256 dense1 input_layer)) in Heq.
  assert (Hx : length x = 256%nat) by (unfold x; rewrite length_map; apply dense_length).
  destruct (conditioning_augmentation_spec x eps1 Hx H1) as [_ N1].
  destruct (conditioning_augmentation_spec x eps2 Hx H2) as [_ N2].
  apply nth_ext with (d := 0) (d' := 0); [congruence|].
  intros k Hk. rewrite H1 in Hk.
  specialize (N1 k Hk). specialize (N2 k Hk). rewrite Heq, N2 in N1.
  pose proof (exp_pos (nth (128 + k) x 0)) as Hpos.
  apply (Rmult_eq_reg_l (exp (nth (128 + k) x 0))); lra.
Qed.

Lemma ca_output_determined_by_noise_witness :
  length (repeat 0 128) = 128%nat /\ length (repeat 1 128) = 128%nat /\
  build_ca_model Samples.zero_dense (repeat 0 1024) (repeat 0 128)
  <> build_ca_model Samples.zero_dense (repeat 0 1024) (repeat 1 128).
Proof.
  split; [reflexivity|]. split; [reflexivity|].
  intros H. apply ca_output_determined_by_noise in H; [|reflexivity|reflexivity].
  simpl in H. injection H as H. lra.
Defined.

End StackGANFacts.

(** ** Facts on the construction of the Stage-2 generator *)

Module SymFacts.
Import Sym.
Local Open Scope nat_scope.

(** The join of [build_stage2_generator] receives the conditioning vector
    of shape [(None, 128)] and the encoded image of shape
    [(None, 16, 16, 512)]: a join that accepts only these shapes lets the
    construction go through. *)
Lemma stage2_join_arguments :
  stage2_generator_shape_using
    (fun c x => if shape_eqb c [None; Some 128]
                   && shape_eqb x [None; Some 16; Some 16; Some 512]
                then Some [None; Some 16; Some 16; Some 640] else None)
  = Some ([None; Some 288; Some 288; Some 3], [None; Some 256]).
Proof. vm_compute. reflexivity. Qed.

(** C6 (divergence): [concat_along_dims] adds one axis to the
    [(None, 128)] conditioning vector and tiles the rank-3 result with four
    multiples, which [tf.tile] rejects; two [expand_dims], as in
    [face_app]'s [expand_dims], give the 16x16x640 join. *)
Theorem concat_along_dims_tile_rank_mismatch :
  expand_dims_shape [None; Some 128] 1 = Some [None; Some 1; Some 128] /\
  tile_shape [None; Some 1; Some 128] [1; 16; 16; 1] = None /\
  concat_along_dims_shape [None; Some 128] [None; Some 16; Some 16; Some 512] = None /\
  concat_along_dims_expanded_twice_shape [None; Some 128]
    [None; Some 16; Some 16; Some 512] = Some [None; Some 16; Some 16; Some 640].
Proof. repeat split. Qed.

(** C5 (divergence): [build_stage2_generator] raises while joining the
    conditioning vector (the tiling of C6); with that join repaired, the
    image output has static shape 288x288x3, not 256x256x3, because the
    [ZeroPadding2D] before the [padding='same'] convolution takes the
    16x16 map to 18x18 before the four upsampling blocks. *)
Theorem stage2_generator_construction :
  build_stage2_generator_shape = None /\
  stage2_generator_shape_using concat_along_dims_expanded_twice_shape
  = Some ([None; Some 288; Some 288; Some 3], [None; Some 256]).
Proof. split; vm_compute; reflexivity. Qed.

End SymFacts.

(** ** Facts on the Age-cGAN script *)

Module AgeCGANFacts.
Import Tensor AgeCGAN.

Local Open Scope Z_scope.

Example fromordinal_first : ord2ymd 1 = (1, 1, 1).
Proof. reflexivity. Qed.
Example fromordinal_y2k : ord2ymd 730120 = (2000, 1, 1).
Proof. reflexivity. Qed.
Example fromordinal_leap : ord2ymd 730179 = (2000, 2, 29).
Proof. reflexivity. Qed.
Example fromordinal_last : ord2ymd MAXORDINAL = (9999, 12, 31).
Proof. reflexivity. Qed.
Example compute_age_july : compute_age 2010 (730120 + 366 + 182) = Some 9.
Proof. reflexivity. Qed.
Example compute_age_june : compute_age 2010 (730120 + 366 + 181) = Some 10.
Proof. reflexivity. Qed.

(** The year of an ordinal of [1 .. MAXORDINAL] is in [1 .. 9999]. *)
Lemma ord2ymd_year_range n :
  1 <= n <= MAXORDINAL -> 1 <= fst (fst (ord2ymd n)) <= 9999.
Proof.
  intros Hn. unfold ord2ymd, MAXORDINAL, DI400Y, DI100Y, DI4Y in *.
  set (m := n - 1).
  pose proof (Z.div_mod m 146097 ltac:(lia)) as E1.
  pose proof (Z.mod_pos_bound m 146097 ltac:(lia)) as B1.
  set (a := m / 146097) in *. set (r1 := m mod 146097) in *.
  pose proof (Z.div_mod r1 36524 ltac:(lia)) as E2.
  pose proof (Z.mod_pos_bound r1 36524 ltac:(lia)) as B2.
  set (b := r1 / 36524) in *. set (r2 := r1 mod 36524) in *.
  pose proof (Z.div_mod r2 1461 ltac:(lia)) as E3.
  pose proof (Z.mod_pos_bound r2 1461 ltac:(lia)) as B3.
  set (c := r2 / 1461) in *. set (r3 := r2 mod 1461) in *.
  pose proof (Z.div_mod r3 365 ltac:(lia)) as E4.
  pose proof (Z.mod_pos_bound r3 365 ltac:(lia)) as B4.
  set (d := r3 / 365) in *. set (r4 := r3 mod 365) in *.
  assert (Ha : 0 <= a <= 24) by nia.
  assert (Hb : 0 <= b <= 4) by nia.
  assert (Hc : 0 <= c <= 24) by nia.
  assert (Hd : 0 <= d <= 4) by nia.
  destruct ((d =? 4) || (b =? 4)) eqn:Hspecial.
  - simpl. apply orb_true_iff in Hspecial as [Hs|Hs]; apply Z.eqb_eq in Hs; nia.
  - cbv zeta.
    destruct (_ >? _); simpl; apply orb_false_iff in Hspecial as [Hs1 Hs2];
      apply Z.eqb_neq in Hs1, Hs2; nia.
Qed.

(** C9: when the birth date is a date Python represents, [compute_age]
    returns the photo year minus the birth year, minus one exactly when
    the birth month is July or later; the birth date is
    [datetime.fromordinal(max(dob - 366, 1))]. *)
Theorem compute_age_rule (photo_date dob : Z) :
  dob - 366 <= MAXORDINAL ->
  let '(year, month, _) := ord2ymd (Z.max (dob - 366) 1) in
  compute_age photo_date dob = Some (photo_date - year - (if 7 <=? month then 1 else 0)).
Proof.
  intros Hd.
  pose proof (ord2ymd_year_range (Z.max (dob - 366) 1)) as Hy.
  unfold compute_age, fromordinal.
  destruct (ord2ymd (Z.max (dob - 366) 1)) as [[y m] d].
  simpl in Hy. unfold MAXORDINAL in *. specialize (Hy ltac:(lia)).
  replace ((1 <=? y) && (y <=? 9999)) with true
    by (symmetry; apply andb_true_iff; split; apply Z.leb_le; lia).
  destruct (Z.ltb_spec m 7), (Z.leb_spec 7 m); f_equal; lia.
Qed.

Lemma compute_age_rule_witness :
  723671 - 366 <= MAXORDINAL /\
  (let '(year, month, _) := ord2ymd (Z.max (723671 - 366) 1) in
   compute_age 2009 723671 = Some (2009 - year - (if 7 <=? month then 1 else 0))).
Proof.
  split; [unfold MAXORDINAL; lia|].
  apply compute_age_rule. unfold MAXORDINAL; lia.
Defined.

Local Close Scope Z_scope.

(** C10: every convolution of [encoder] reads [input_layer], so the encoder
    is the smaller network made of the 256-filter block and the dense head
    alone, with the same weights. *)
Theorem encoder_equals_small_encoder (p : encoder_params) (input_layer : img) :
  encoder p input_layer = small_encoder (kept_weights p) input_layer.
Proof. reflexivity. Qed.

End AgeCGANFacts.

(** ** Facts on the [trainable] flag *)

Module TrainableFacts.
Import Trainable.

(** C4 fails: [stack_gan]'s builder leaves the discriminator non-trainable,
    and in [face_app]'s [main] the adversarial model is compiled after the
    flag is set back, so its optimisation step moves the discriminator. *)
Lemma adversarial_flags_counterexample :
  dis_trainable (fst (build_adversarial (fresh [0] [0]))) = false /\
  (let '(s, _, _, adv_c) := main_setup [0] [0] in
   dis_weights (train_step adv_c 1 (fun _ => [1]) s) <> dis_weights s).
Proof.
  split; [reflexivity|].
  simpl. intros Heq. injection Heq as Heq. lra.
Qed.

(** C4, as the code does it: [stack_gan]'s [build_adversarial] sets the
    discriminator non-trainable and leaves it so, and an optimisation step
    of the composite compiled after it leaves the discriminator's weights
    unchanged; [face_app]'s [adversarial] returns with the discriminator
    trainable again. *)
Theorem adversarial_flags_amended :
  (forall s,
     dis_trainable (fst (build_adversarial s)) = false /\
     forall lr grad,
       let '(s', adv) := build_adversarial s in
       dis_weights (train_step (compile s' adv) lr grad s') = dis_weights s') /\
  (forall s, dis_trainable (fst (adversarial s)) = true).
Proof.
  split.
  - intros s. split; [reflexivity|]. intros lr grad.
    unfold build_adversarial, compile. simpl.
    destruct (gen_trainable s); reflexivity.
  - intros s. reflexivity.
Qed.

End TrainableFacts.

(** ** Facts on the StackGAN layers *)

Module StackGANLayerFacts.
Import Tensor TensorFacts StackGAN StackGANFacts.

(** [UpSamplingBlock] doubles the height and the width, has [num_kernels]
    channels, and ends in a rectifier: every value is non-negative. *)
Theorem UpSamplingBlock_shape_nonneg (p : up_params) (h w c : nat) (x : img) (k : nat) :
  has_shape h w c x -> (0 < h)%nat ->
  has_shape (2 * h) (2 * w) k (UpSamplingBlock p x k) /\
  all_values (fun v => 0 <= v) (UpSamplingBlock p x k).
Proof.
  intros Hs Hh. split.
  - eapply UpSamplingBlock_has_shape; eassumption.
  - unfold UpSamplingBlock. apply all_values_map_img. intros v. apply Rmax_r.
Qed.

Lemma UpSamplingBlock_shape_nonneg_witness :
  has_shape 1 1 2 (Samples.zero_image 1 1 2) /\ (0 < 1)%nat /\
  has_shape 2 2 3 (UpSamplingBlock Samples.zero_up (Samples.zero_image 1 1 2) 3) /\
  all_values (fun v => 0 <= v) (UpSamplingBlock Samples.zero_up (Samples.zero_image 1 1 2) 3).
Proof.
  assert (H : has_shape 1 1 2 (Samples.zero_image 1 1 2))
    by (split; [reflexivity|]; repeat constructor).
  split; [exact H|]. split; [lia|].
  apply (UpSamplingBlock_shape_nonneg _ 1 1 2); [exact H|lia].
Defined.

(** [ConvBlock] (a stride-2 [padding='same'] convolution) takes an
    h x w map to ceil(h/2) x ceil(w/2) with [num_kernels] channels. *)
Theorem ConvBlock_halves (p : conv_block_params) (h w c : nat) (x : img) (k : nat) :
  has_shape h w c x -> (0 < h)%nat ->
  has_shape ((h + 1) / 2) ((w + 1) / 2) k (ConvBlock p x k).
Proof.
  intros Hs Hh. unfold ConvBlock. apply map_img_shape, batch_norm_shape.
  replace ((h + 1) / 2)%nat with (out_dim Same 4 2 h)
    by (unfold out_dim; f_equal; lia).
  replace ((w + 1) / 2)%nat with (out_dim Same 4 2 w)
    by (unfold out_dim; f_equal; lia).
  eapply conv2d_shape; eassumption.
Qed.

Lemma ConvBlock_halves_witness :
  has_shape 5 6 1 (Samples.zero_image 5 6 1) /\ (0 < 5)%nat /\
  has_shape 3 3 2
    (ConvBlock {| cb_kernel := Samples.zero_kernel; cb_bn := Samples.initial_bn |}
       (Samples.zero_image 5 6 1) 2).
Proof.
  assert (H : has_shape 5 6 1 (Samples.zero_image 5 6 1))
    by (split; [reflexivity|]; repeat constructor).
  split; [exact H|]. split; [lia|].
  apply (ConvBlock_halves _ 5 6 1); [exact H|lia].
Defined.

(** [residual_block] ends in a rectifier: every value of its output is
    non-negative. *)
Theorem residual_block_nonneg (p : residual_params) (inputs : img) :
  all_values (fun v => 0 <= v) (residual_block p inputs).
Proof.
  unfold residual_block. apply all_values_map_img. intros v. apply Rmax_r.
Qed.

(** The first convolution and normalisation of [residual_block] are dead:
    the output depends only on the weights of the second convolution and
    normalisation, which read [inputs]. *)
Theorem residual_block_ignores_first_conv (p q : residual_params) (inputs : img) :
  r_conv2 p = r_conv2 q -> r_bn2 p = r_bn2 q ->
  residual_block p inputs = residual_block q inputs.
Proof.
  intros H2 Hb2. unfold residual_block. rewrite H2, Hb2. reflexivity.
Qed.

Lemma residual_block_ignores_first_conv_witness :
  let q := {| r_conv1 := fun _ _ _ _ => 1; r_bn1 := Samples.initial_bn;
              r_conv2 := Samples.zero_kernel; r_bn2 := Samples.initial_bn |} in
  r_conv1 Samples.zero_residual <> r_conv1 q /\
  residual_block Samples.zero_residual (Samples.zero_image 1 1 512)
  = residual_block q (Samples.zero_image 1 1 512).
Proof.
  intros q. split.
  - intros H. assert (E : r_conv1 Samples.zero_residual 0%nat 0%nat 0%nat 0%nat = r_conv1 q 0%nat 0%nat 0%nat 0%nat)
      by (rewrite H; reflexivity).
    simpl in E. unfold Samples.zero_kernel in E. lra.
  - apply residual_block_ignores_first_conv; reflexivity.
Defined.

(** In [build_stage1_discriminator], the fused 1x1 convolution and its
    normalisation (lines 148-149) are dead: the output depends only on the
    weights of the image branch and of the dense layer. *)
Theorem stage1_discriminator_ignores_fused_layer (p q : stage1_dis_params) (image cond : img) :
  d1_conv p = d1_conv q -> d1_block1 p = d1_block1 q -> d1_block2 p = d1_block2 q ->
  d1_block3 p = d1_block3 q -> d1_fc p = d1_fc q ->
  build_stage1_discriminator p image cond = build_stage1_discriminator q image cond.
Proof.
  intros H1 H2 H3 H4 H5. unfold build_stage1_discriminator.
  rewrite H1, H2, H3, H4, H5. reflexivity.
Qed.

Lemma stage1_discriminator_ignores_fused_layer_witness :
  let blk := {| cb_kernel := Samples.zero_kernel; cb_bn := Samples.initial_bn |} in
  let p := {| d1_conv := Samples.zero_kernel; d1_block1 := blk; d1_block2 := blk;
              d1_block3 := blk; d1_fused := Samples.zero_kernel;
              d1_fused_bn := Samples.initial_bn; d1_fc := Samples.zero_dense |} in
  let q := {| d1_conv := Samples.zero_kernel; d1_block1 := blk; d1_block2 := blk;
              d1_block3 := blk; d1_fused := fun _ _ _ _ => 1;
              d1_fused_bn := Samples.initial_bn; d1_fc := Samples.zero_dense |} in
  d1_fused p <> d1_fused q /\
  build_stage1_discriminator p (Samples.zero_image 1 1 3) (Samples.zero_image 1 1 128)
  = build_stage1_discriminator q (Samples.zero_image 1 1 3) (Samples.zero_image 1 1 128).
Proof.
  intros blk p q. split.
  - intros H. assert (E : d1_fused p 0%nat 0%nat 0%nat 0%nat = d1_fused q 0%nat 0%nat 0%nat 0%nat)
      by (rewrite H; reflexivity).
    simpl in E. unfold Samples.zero_kernel in E. lra.
  - apply stage1_discriminator_ignores_fused_layer; reflexivity.
Defined.

End StackGANLayerFacts.

(** ** Facts on the construction of the other networks *)

Module ConstructionFacts.
Import Sym.
Local Open Scope nat_scope.


Lemma broadcast_dim_one_r (b : dim) : broadcast_dim b (Some 1) = Some b.
Proof. destruct b as [[|[|k]]|]; reflexivity. Qed.

Lemma broadcast_dim_refl (b : dim) : broadcast_dim b b = Some b.
Proof. destruct b as [[|[|k]]|]; simpl; try reflexivity. rewrite Nat.eqb_refl. reflexivity. Qed.

Lemma broadcast_dim_other (m : nat) :
  m <> 1 -> m <> 128 -> broadcast_dim (Some m) (Some 128) = None.
Proof.
  intros H1 H2. destruct m as [|[|m]]; [reflexivity|contradiction|].
  cbn [broadcast_dim]. replace (Nat.eqb (S (S m)) 128) with false; [reflexivity|].
  symmetry. apply Nat.eqb_neq. exact H2.
Qed.


(** The [Lambda] of [conditioning_augmentation] on a [(batch, n)] input with
    [n >= 128] builds only for [n = 256], or for [n = 129] where the single
    [log_sigma] column broadcasts against the 128-wide noise; the output has
    128 columns. *)
Theorem conditioning_augmentation_shape_widths (b : dim) (n : nat) :
  128 <= n ->
  conditioning_augmentation_shape [b; Some n]
  = if (n =? 256) || (n =? 129) then Some [b; Some 128] else None.
Proof.
  intros Hn. unfold conditioning_augmentation_shape. rewrite Nat.min_l by exact Hn.
  unfold bind, broadcast_shape. remember (n - 128) as m eqn:Em.
  cbn -[broadcast_dim]. rewrite broadcast_dim_one_r.
  destruct (Nat.eq_dec n 129) as [->|H129]; [|destruct (Nat.eq_dec n 256) as [->|H256]].
  - subst m. destruct b as [[|[|k]]|]; simpl; try rewrite Nat.eqb_refl; reflexivity.
  - subst m. destruct b as [[|[|k]]|]; simpl; try rewrite Nat.eqb_refl; reflexivity.
  - rewrite broadcast_dim_other by lia. cbn [all_some option_map].
    replace (n =? 256) with false by (symmetry; apply Nat.eqb_neq; exact H256).
    replace (n =? 129) with false by (symmetry; apply Nat.eqb_neq; exact H129).
    reflexivity.
Qed.

Lemma conditioning_augmentation_shape_widths_witness :
  128 <= 256 /\
  conditioning_augmentation_shape [None; Some 256]
  = if (256 =? 256) || (256 =? 129) then Some [None; Some 128] else None.
Proof. split; [lia|]. apply conditioning_augmentation_shape_widths. lia. Defined.

(** [build_stage1_generator()] builds: inputs [(None, 1024)] and
    [(None, 100)], outputs the [(None, 64, 64, 3)] image and the
    [(None, 256)] projection [ca]. *)
Theorem stage1_generator_construction :
  StackGANSym.build_stage1_generator_shape
  = Some ([[None; Some 1024]; [None; Some 100]],
          [[None; Some 64; Some 64; Some 3]; [None; Some 256]]).
Proof. vm_compute. reflexivity. Qed.

(** [build_stage1_discriminator()] builds (the image branch reaches
    4x4x512, which concatenates with the [(4, 4, 128)] conditioning input);
    the output is [(None, 1)]. *)
Theorem stage1_discriminator_construction :
  StackGANSym.build_stage1_discriminator_shape
  = Some ([[None; Some 64; Some 64; Some 3]; [None; Some 4; Some 4; Some 128]],
          [[None; Some 1]]).
Proof. vm_compute. reflexivity. Qed.

(** [build_adversarial] on the two built Stage-1 models builds: its
    outputs are the [(None, 1)] probability and the [(None, 256)] [ca]. *)
Theorem stage1_adversarial_construction :
  match StackGANSym.build_stage1_generator_shape,
        StackGANSym.build_stage1_discriminator_shape with
  | Some g, Some d => StackGANSym.build_adversarial_shape g d
  | _, _ => None
  end = Some [[None; Some 1]; [None; Some 256]].
Proof. vm_compute. reflexivity. Qed.

(** [generator()] of [face_app] builds, with a [(None, 64, 64, 64)]
    output: its last convolution has 64 filters.  [discriminator()] builds,
    the label tiled by [expand_dims] to [(None, 32, 32, 6)], with a
    [(None, 1)] output. *)
Theorem age_cgan_models_construction :
  AgeCGANSym.generator_shape
  = Some ([[None; Some 100]; [None; Some 6]], [[None; Some 64; Some 64; Some 64]]) /\
  AgeCGANSym.expand_dims [None; Some 6] = Some [None; Some 32; Some 32; Some 6] /\
  AgeCGANSym.discriminator_shape
  = Some ([[None; Some 64; Some 64; Some 3]; [None; Some 32; Some 32; Some 6]],
          [[None; Some 1]]).
Proof. repeat split; vm_compute; reflexivity. Qed.

(** [adversarial(generator, discriminator)] of [face_app] raises on the two
    built models: the 64-channel generator output does not fit the
    discriminator's [(64, 64, 3)] image input.  It raises as well when the
    discriminator's second input is read as the [Input(shape=(6,))] label. *)
Theorem age_cgan_adversarial_construction_fails :
  (match AgeCGANSym.generator_shape, AgeCGANSym.discriminator_shape with
   | Some g, Some d => AgeCGANSym.adversarial_shape g d
   | _, _ => None
   end = None) /\
  (match AgeCGANSym.generator_shape with
   | Some g => AgeCGANSym.adversarial_shape g
                 ([Input [64; 64; 3]; Input [6]], [[None; Some 1]])
   | None => None
   end = None).
Proof. split; vm_compute; reflexivity. Qed.

End ConstructionFacts.

(** ** Facts on the other functions of the Age-cGAN script *)

Module AgeCGANNetFacts.
Import Tensor TensorFacts AgeCGAN.

(** The image output of [generator] has shape 64x64x64 (the last
    convolution has 64 filters) and all its values in [-1, 1], for all
    weights, inputs and [Dropout] modes. *)
Theorem generator_output_shape_and_range (p : generator_params)
    (mode1 mode2 : option (nat -> bool)) (latent_vector conditioning_variable : vec) :
  has_shape 64 64 64 (generator p mode1 mode2 latent_vector conditioning_variable) /\
  all_values (fun v => -1 <= v <= 1)
    (generator p mode1 mode2 latent_vector conditioning_variable).
Proof.
  cbv beta zeta delta [generator]. split.
  - apply map_img_shape. eapply StackGANFacts.conv2d_same1_shape; [|lia].
    apply (upsampling2d_shape 32 32 64); [|lia].
    apply map_img_shape, batch_norm_shape.
    eapply StackGANFacts.conv2d_same1_shape; [|lia].
    apply (upsampling2d_shape 16 16 128); [|lia].
    apply map_img_shape, batch_norm_shape.
    eapply StackGANFacts.conv2d_same1_shape; [|lia].
    apply (upsampling2d_shape 8 8 256); [|lia].
    apply reshape3_shape.
  - apply all_values_map_img. exact tanh_bounds.
Qed.

Lemma sum_squares_scale (x : vec) (r : R) :
  sum_squares (map (fun v => v * r) x) = r * r * sum_squares x.
Proof.
  unfold sum_squares. induction x as [|a x IH]; simpl; [ring|]. rewrite IH. ring.
Qed.

Lemma sum_squares_nonneg (x : vec) : 0 <= sum_squares x.
Proof.
  unfold sum_squares. induction x as [|a x IH]; simpl; [lra|]. nra.
Qed.

(** The embedding returned by [face_recognition] has squared L2 norm at
    most 1, and exactly 1 when the squared norm of the network's embedding
    is at least [1e-12], the [epsilon] of [l2_normalize]. *)
Theorem face_recognition_unit_norm (embedding_model : img -> vec) (input_layer : img) :
  sum_squares (face_recognition embedding_model input_layer) <= 1 /\
  (/ 10 ^ 12 <= sum_squares (embedding_model input_layer) ->
   sum_squares (face_recognition embedding_model input_layer) = 1).
Proof.
  unfold face_recognition, l2_normalize. rewrite sum_squares_scale.
  set (S := sum_squares (embedding_model input_layer)).
  assert (HS : 0 <= S) by apply sum_squares_nonneg.
  assert (He : 0 < / 10 ^ 12) by (apply Rinv_0_lt_compat, pow_lt; lra).
  set (M := Rmax S (/ 10 ^ 12)).
  assert (HM : 0 < M) by (unfold M; eapply Rlt_le_trans; [exact He|apply Rmax_r]).
  assert (HSM : S <= M) by apply Rmax_l.
  replace (/ sqrt M * / sqrt M) with (/ M)
    by (rewrite <- Rinv_mult, sqrt_sqrt by lra; reflexivity).
  split.
  - apply (Rmult_le_reg_l M); [exact HM|].
    rewrite <- Rmult_assoc, Rinv_r by lra. lra.
  - intros HeS. unfold M. rewrite Rmax_left by exact HeS.
    apply Rinv_l. lra.
Qed.

Lemma face_recognition_unit_norm_witness :
  / 10 ^ 12 <= sum_squares ((fun _ : img => [1]) []) /\
  sum_squares (face_recognition (fun _ => [1]) []) = 1.
Proof.
  assert (H : / 10 ^ 12 <= sum_squares ((fun _ : img => [1]) [])).
  { replace (sum_squares ((fun _ : img => [1]) [])) with 1
      by (unfold sum_squares; simpl; ring).
    rewrite <- Rinv_1 at 1. apply Rinv_le_contravar; [lra|].
    apply pow_R1_Rle. lra. }
  split; [exact H|]. apply (face_recognition_unit_norm (fun _ => [1]) []). exact H.
Defined.

(** [fake] is all zeros ([np.zeros(...) * 0.1]: the 0.1 smoothing has no
    effect), while [real] is all 0.9. *)
Theorem main_labels (batch_size : nat) :
  fake batch_size = repeat 0 batch_size /\ real batch_size = repeat (9 / 10) batch_size.
Proof.
  unfold fake, real. induction batch_size as [|n [IHf IHr]]; [split; reflexivity|].
  simpl. rewrite IHf, IHr. split; f_equal; lra.
Qed.

(** *** Dates and [load_data] *)

Local Open Scope Z_scope.

(** The year of an ordinal beyond [MAXORDINAL] is at least 10000. *)
Lemma ord2ymd_year_beyond n :
  MAXORDINAL < n -> 9999 < fst (fst (ord2ymd n)).
Proof.
  intros Hn. unfold ord2ymd, MAXORDINAL, DI400Y, DI100Y, DI4Y in *.
  set (m := n - 1).
  pose proof (Z.div_mod m 146097 ltac:(lia)) as E1.
  pose proof (Z.mod_pos_bound m 146097 ltac:(lia)) as B1.
  set (a := m / 146097) in *. set (r1 := m mod 146097) in *.
  pose proof (Z.div_mod r1 36524 ltac:(lia)) as E2.
  pose proof (Z.mod_pos_bound r1 36524 ltac:(lia)) as B2.
  set (b := r1 / 36524) in *. set (r2 := r1 mod 36524) in *.
  pose proof (Z.div_mod r2 1461 ltac:(lia)) as E3.
  pose proof (Z.mod_pos_bound r2 1461 ltac:(lia)) as B3.
  set (c := r2 / 1461) in *. set (r3 := r2 mod 1461) in *.
  pose proof (Z.div_mod r3 365 ltac:(lia)) as E4.
  pose proof (Z.mod_pos_bound r3 365 ltac:(lia)) as B4.
  set (d := r3 / 365) in *. set (r4 := r3 mod 365) in *.
  assert (Ha : 24 <= a) by nia.
  assert (Hb : 0 <= b <= 4) by nia.
  assert (Hc : 0 <= c <= 24) by nia.
  assert (Hd : 0 <= d <= 4) by nia.
  destruct ((d =? 4) || (b =? 4)) eqn:Hspecial.
  - simpl. apply orb_true_iff in Hspecial as [Hs|Hs]; apply Z.eqb_eq in Hs; nia.
  - cbv zeta.
    destruct (_ >? _); simpl; apply orb_false_iff in Hspecial as [Hs1 Hs2];
      apply Z.eqb_neq in Hs1, Hs2; nia.
Qed.

(** A [dob] of at most 367 is clamped to ordinal 1 (1 January of year 1):
    [compute_age] returns [photo_date - 1]. *)
Theorem compute_age_clamped (photo_date dob : Z) :
  dob <= 367 -> compute_age photo_date dob = Some (photo_date - 1).
Proof.
  intros Hd. unfold compute_age. rewrite Z.max_r by lia. reflexivity.
Qed.

Lemma compute_age_clamped_witness :
  0 <= 367 /\ compute_age 2009 0 = Some (2009 - 1).
Proof. split; [lia|]. apply compute_age_clamped. lia. Defined.

(** A [dob] beyond [MAXORDINAL + 366] makes [datetime.fromordinal] raise
    [ValueError]: [compute_age] fails. *)
Theorem compute_age_value_error (photo_date dob : Z) :
  MAXORDINAL < dob - 366 -> compute_age photo_date dob = None.
Proof.
  intros Hd. unfold compute_age, fromordinal.
  rewrite Z.max_l by (unfold MAXORDINAL in Hd; lia).
  pose proof (ord2ymd_year_beyond (dob - 366) Hd) as Hy.
  destruct (ord2ymd (dob - 366)) as [[y m] d]. simpl in Hy.
  replace (y <=? 9999) with false by (symmetry; apply Z.leb_gt; exact Hy).
  rewrite andb_false_r. reflexivity.
Qed.

Lemma compute_age_value_error_witness :
  MAXORDINAL < 4000000 - 366 /\ compute_age 2009 4000000 = None.
Proof. split; [unfold MAXORDINAL; lia|]. apply compute_age_value_error. unfold MAXORDINAL; lia. Defined.

Lemma map_option_length {A B} (f : A -> option B) (l : list A) (l' : list B) :
  map_option f l = Some l' -> length l' = length l.
Proof.
  revert l'. induction l as [|a l IH]; intros l' H; simpl in H.
  - injection H as <-. reflexivity.
  - destruct (f a); [|discriminate].
    destruct (map_option f l) eqn:E; [|discriminate].
    injection H as <-. simpl. f_equal. apply IH. reflexivity.
Qed.

Lemma map_option_nth {A B} (f : A -> option B) (l : list A) (l' : list B) (i : nat) (a : A) :
  map_option f l = Some l' -> nth_error l i = Some a ->
  exists b, nth_error l' i = Some b /\ f a = Some b.
Proof.
  revert l' i. induction l as [|a0 l IH]; intros l' i H Hi; [destruct i; discriminate|].
  simpl in H. destruct (f a0) eqn:Ef; [|discriminate].
  destruct (map_option f l) eqn:E; [|discriminate]. injection H as <-.
  destruct i as [|i]; simpl in Hi.
  - injection Hi as <-. exists b. split; [reflexivity|exact Ef].
  - apply (IH l0 i eq_refl Hi).
Qed.

Lemma map_option_none {A B} (f : A -> option B) (l : list A) (a : A) :
  In a l -> f a = None -> map_option f l = None.
Proof.
  intros Hin Hf. induction l as [|a0 l IH]; [destruct Hin|].
  simpl. destruct Hin as [<-|Hin].
  - rewrite Hf. reflexivity.
  - destruct (f a0); [|reflexivity]. rewrite (IH Hin). reflexivity.
Qed.

Lemma nth_error_combine_seq {A} (l : list A) (s i : nat) :
  nth_error (combine (seq s (length l)) l) i
  = option_map (fun a => ((s + i)%nat, a)) (nth_error l i).
Proof.
  revert s i. induction l as [|a l IH]; intros s i; [destruct i; reflexivity|].
  destruct i as [|i]; simpl.
  - rewrite Nat.add_0_r. reflexivity.
  - rewrite IH. replace (S s + i)%nat with (s + S i)%nat by lia. reflexivity.
Qed.

(** When [load_data] returns, [images] and [ages_list] have one entry per
    path: entry [i] is the first element of [paths[i]] and
    [compute_age(photo_date[i], dob[i])]. *)
Theorem load_data_arrays_result {P : Type} (paths : list (list P)) (dob photo_date : list Z)
    (images : list P) (ages_list : list Z) :
  load_data_arrays paths dob photo_date = Some (images, ages_list) ->
  length images = length paths /\ length ages_list = length paths /\
  forall i image_path, nth_error paths i = Some image_path ->
    nth_error images i = hd_error image_path /\
    exists pd d, nth_error photo_date i = Some pd /\ nth_error dob i = Some d /\
                 nth_error ages_list i = compute_age pd d.
Proof.
  intros H. unfold load_data_arrays in H.
  destruct (map_option _ (seq 0 (length dob))) as [calculated_age|] eqn:E1;
    [|discriminate].
  destruct (map_option _ (combine (seq 0 (length paths)) paths)) as [pairs|] eqn:E2;
    [|discriminate].
  injection H as <- <-.
  pose proof (map_option_length _ _ _ E2) as Hl2.
  rewrite length_combine, length_seq, Nat.min_id in Hl2.
  split; [rewrite length_map; exact Hl2|]. split; [rewrite length_map; exact Hl2|].
  intros i image_path Hi.
  assert (Hc : nth_error (combine (seq 0 (length paths)) paths) i = Some (i, image_path))
    by (rewrite nth_error_combine_seq, Hi; reflexivity).
  destruct (map_option_nth _ _ _ _ _ E2 Hc) as [[im a] [Hp Hf]].
  cbn beta iota in Hf.
  destruct (hd_error image_path) as [im'|] eqn:Hh; [|discriminate].
  destruct (nth_error calculated_age i) as [a'|] eqn:Hca; [|discriminate].
  injection Hf as <- <-.
  split; [rewrite nth_error_map, Hp; reflexivity|].
  pose proof (map_option_length _ _ _ E1) as Hl1. rewrite length_seq in Hl1.
  assert (Hlt : (i < length dob)%nat)
    by (rewrite <- Hl1; apply nth_error_Some; rewrite Hca; discriminate).
  assert (Hs : nth_error (seq 0 (length dob)) i = Some i)
    by (rewrite nth_error_seq; apply Nat.ltb_lt in Hlt; rewrite Hlt; reflexivity).
  destruct (map_option_nth _ _ _ _ _ E1 Hs) as [b [Hb Hg]].
  rewrite Hca in Hb. injection Hb as <-.
  destruct (nth_error photo_date i) as [pd|]; [|discriminate].
  destruct (nth_error dob i) as [d|]; [|discriminate].
  exists pd, d. split; [reflexivity|]. split; [reflexivity|].
  rewrite nth_error_map, Hp. simpl. symmetry. exact Hg.
Qed.

Lemma load_data_arrays_result_witness :
  load_data_arrays [[1%nat]; [2%nat]] [723671; 730000] [2009; 2010] = Some ([1%nat; 2%nat], [28; 11]) /\
  (length [1%nat; 2%nat] = length [[1%nat]; [2%nat]] /\
   length [28; 11] = length [[1%nat]; [2%nat]] /\
   forall i image_path, nth_error [[1%nat]; [2%nat]] i = Some image_path ->
     nth_error [1%nat; 2%nat] i = hd_error image_path /\
     exists pd d, nth_error [2009; 2010] i = Some pd /\ nth_error [723671; 730000] i = Some d /\
                  nth_error [28; 11] i = compute_age pd d).
Proof.
  assert (H : load_data_arrays [[1%nat]; [2%nat]] [723671; 730000] [2009; 2010]
              = Some ([1%nat; 2%nat], [28; 11])) by (vm_compute; reflexivity).
  split; [exact H|]. exact (load_data_arrays_result _ _ _ _ _ H).
Defined.



(** [calculated_age] is computed for every [dob] entry before the paths are
    read: one [dob] that [compute_age] rejects makes [load_data] fail,
    whatever the paths. *)
Theorem load_data_arrays_value_error {P : Type} (paths : list (list P)) (dob photo_date : list Z)
    (i : nat) (pd d : Z) :
  nth_error photo_date i = Some pd -> nth_error dob i = Some d -> compute_age pd d = None ->
  load_data_arrays paths dob photo_date = None.
Proof.
  intros Hp Hd Hc. unfold load_data_arrays.
  erewrite map_option_none; [reflexivity| |].
  - apply in_seq. split; [lia|]. simpl. apply nth_error_Some. rewrite Hd. discriminate.
  - cbv beta. rewrite Hp, Hd. exact Hc.
Qed.

Lemma load_data_arrays_value_error_witness :
  nth_error [2009] 0 = Some 2009 /\ nth_error [4000000] 0 = Some 4000000 /\
  compute_age 2009 4000000 = None /\
  load_data_arrays (@nil (list nat)) [4000000] [2009] = None.
Proof.
  assert (H : compute_age 2009 4000000 = None) by (vm_compute; reflexivity).
  split; [reflexivity|]. split; [reflexivity|]. split; [exact H|].
  apply (load_data_arrays_value_error _ _ _ 0 2009 4000000); [reflexivity|reflexivity|exact H].
Defined.

End AgeCGANNetFacts.
